(** * The query builder of github.com/go-rel/rel: query.go

    A shallow embedding of [vendor/github.com/go-rel/rel/query.go]: the
    [Query] aggregate, the fold [Build] over heterogeneous fragments, the
    merge [Query.Build], the chainable builder methods and the debug
    rendering [Query.String].

    Conventions.  A Go method [T.m] is written [T_m]; a method with a pointer
    argument [Build(query *Query)] becomes a function [Query -> Query] that
    returns the updated aggregate.  Go's [int] is modelled by [Z] (the file
    does no arithmetic on it: it only compares with zero and prints), Go's
    [string] by [string]. *)

From Stdlib Require Import String Ascii List ZArith Bool Lia DecimalString.
Import ListNotations.
Local Open Scope string_scope.
Local Open Scope list_scope.
Set Warnings "-register-all".

(** ** Values and slices *)

(** A value of Go's empty interface, as bound to a raw fragment or a
    predicate.  The builder never inspects such a value. *)
Inductive any : Type :=
| any_nil
| any_bool (b : bool)
| any_int (n : Z)
| any_string (s : string).

(** A slice whose nil-ness the source inspects ([Fields != nil]): [None] is
    the nil slice, [Some []] an empty slice that is not nil.  A variadic
    parameter called with no argument is the nil slice.  The slices that
    query.go only ranges over, measures or appends to are plain lists. *)
Definition slice (A : Type) : Type := option (list A).

Definition len {A : Type} (s : slice A) : nat :=
  match s with
  | None => 0
  | Some l => length l
  end.

Definition elems {A : Type} (s : slice A) : list A :=
  match s with
  | None => []
  | Some l => l
  end.

Definition is_nil {A : Type} (s : slice A) : bool :=
  match s with
  | None => true
  | Some _ => false
  end.

(** The double quote character (an escaped quote in the Go literals). *)
Definition dq : string := String "034"%char EmptyString.

(** [strconv.Itoa]. *)
Definition strconv_Itoa (i : Z) : string := NilZero.string_of_int (Z.to_int i).

(** [strings.Join]. *)
Definition strings_Join (elems : list string) (sep : string) : string :=
  String.concat sep elems.

(** ** The filter tree *)

(** Modelled from the spec: the type FilterQuery is declared in a file of the
    package that is not part of the sources.  Section 3 describes it as a
    tagged variant over "none" (the identity under AND/OR), a single
    field-operator-value predicate, a raw-text fragment with positional
    arguments, and the "and" and "or" combinators over nested filter trees.
    The zero value of the Go type is the "none" variant. *)
Inductive FilterQuery : Type :=
| FilterNone
| FilterPredicate (field op : string) (value : any)
| FilterRaw (expr : string) (args : list any)
| FilterAnd (inner : list FilterQuery)
| FilterOr (inner : list FilterQuery).

(** Modelled from the spec: FilterQuery.None, "a None() predicate testing for
    the identity element" (section 4.3). *)
Definition FilterQuery_None (fq : FilterQuery) : bool :=
  match fq with
  | FilterNone => true
  | _ => false
  end.

(** Modelled from the spec: the combination algorithm of section 4.3 for AND.
    Combining with the identity element returns the other operand unchanged;
    when the left operand is already an "and" node the right operand is
    appended to its list; otherwise a new two-element "and" node is made. *)
Definition and_combine (l r : FilterQuery) : FilterQuery :=
  if FilterQuery_None l then r
  else if FilterQuery_None r then l
  else match l with
       | FilterAnd inner => FilterAnd (inner ++ [r])
       | _ => FilterAnd [l; r]
       end.

(** Modelled from the spec: the combination algorithm of section 4.3 for OR,
    the same as [and_combine] with the "or" combinator. *)
Definition or_combine (l r : FilterQuery) : FilterQuery :=
  if FilterQuery_None l then r
  else if FilterQuery_None r then l
  else match l with
       | FilterOr inner => FilterOr (inner ++ [r])
       | _ => FilterOr [l; r]
       end.

(** Modelled from the spec: the method FilterQuery.And(filters...), the
    receiver combined with each argument in turn. *)
Definition FilterQuery_And (fq : FilterQuery) (filters : list FilterQuery) : FilterQuery :=
  fold_left and_combine filters fq.

(** Modelled from the spec: the method FilterQuery.Or(filters...). *)
Definition FilterQuery_Or (fq : FilterQuery) (filters : list FilterQuery) : FilterQuery :=
  fold_left or_combine filters fq.

(** Modelled from the spec: the free function And(filters...) of section 4.3;
    And(None(), F) is F and And(And(a, b), c) is And(a, b, c). *)
Definition And (filters : list FilterQuery) : FilterQuery :=
  FilterQuery_And FilterNone filters.

(** Modelled from the spec: FilterFragment(rawExpr, args...), the raw-text
    fragment with its positional arguments, accepted uninterpreted. *)
Definition FilterFragment (expr : string) (args : list any) : FilterQuery :=
  FilterRaw expr args.

(** A filter that is neither the identity nor a combinator. *)
Definition atomic (fq : FilterQuery) : bool :=
  match fq with
  | FilterPredicate _ _ _ | FilterRaw _ _ => true
  | _ => false
  end.

(** ** The fragments' types *)

(** The struct declarations below are not in query.go; each record has the
    fields query.go reads or writes, completed from section 3 of the spec. *)

Record SelectQuery : Type := mkSelectQuery {
  SelectQuery_OnlyDistinct : bool;
  SelectQuery_Fields : slice string
}.

Record JoinQuery : Type := mkJoinQuery {
  JoinQuery_Mode : string;
  JoinQuery_Table : string;
  JoinQuery_From : string;
  JoinQuery_To : string;
  JoinQuery_Filter : FilterQuery
}.

Record GroupQuery : Type := mkGroupQuery {
  GroupQuery_Fields : slice string;
  GroupQuery_Filter : FilterQuery
}.

Record SortQuery : Type := mkSortQuery {
  SortQuery_Field : string;
  SortQuery_Sort : Z
}.

Record SQLQuery : Type := mkSQLQuery {
  SQLQuery_Statement : string;
  SQLQuery_Values : list any
}.

Definition Offset : Type := Z.
Definition Limit : Type := Z.
Definition Lock : Type := string.
Definition Unscoped : Type := bool.
Definition Reload : Type := bool.
Definition Cascade : Type := bool.
Definition Preload : Type := string.

(** ** The aggregate *)

Record Query : Type := mkQuery {
  Query_empty : bool;
  Query_Table : string;
  Query_SelectQuery : SelectQuery;
  Query_JoinQuery : list JoinQuery;
  Query_WhereQuery : FilterQuery;
  Query_GroupQuery : GroupQuery;
  Query_SortQuery : list SortQuery;
  Query_OffsetQuery : Offset;
  Query_LimitQuery : Limit;
  Query_LockQuery : Lock;
  Query_SQLQuery : SQLQuery;
  Query_UnscopedQuery : Unscoped;
  Query_ReloadQuery : Reload;
  Query_CascadeQuery : Cascade;
  Query_PreloadQuery : list string;
  Query_UsePrimaryDb : bool
}.

(** The zero value [Query{}]. *)
Definition Query_zero : Query :=
  {| Query_empty := false;
     Query_Table := EmptyString;
     Query_SelectQuery := mkSelectQuery false None;
     Query_JoinQuery := [];
     Query_WhereQuery := FilterNone;
     Query_GroupQuery := mkGroupQuery None FilterNone;
     Query_SortQuery := [];
     Query_OffsetQuery := 0%Z;
     Query_LimitQuery := 0%Z;
     Query_LockQuery := EmptyString;
     Query_SQLQuery := mkSQLQuery EmptyString [];
     Query_UnscopedQuery := false;
     Query_ReloadQuery := false;
     Query_CascadeQuery := false;
     Query_PreloadQuery := [];
     Query_UsePrimaryDb := false |}.

(** Assignments to one field of a [Query] variable. *)

Definition set_empty (v : bool) (q : Query) : Query :=
  mkQuery v (Query_Table q) (Query_SelectQuery q) (Query_JoinQuery q)
    (Query_WhereQuery q) (Query_GroupQuery q) (Query_SortQuery q)
    (Query_OffsetQuery q) (Query_LimitQuery q) (Query_LockQuery q)
    (Query_SQLQuery q) (Query_UnscopedQuery q) (Query_ReloadQuery q)
    (Query_CascadeQuery q) (Query_PreloadQuery q) (Query_UsePrimaryDb q).

Definition set_Table (v : string) (q : Query) : Query :=
  mkQuery (Query_empty q) v (Query_SelectQuery q) (Query_JoinQuery q)
    (Query_WhereQuery q) (Query_GroupQuery q) (Query_SortQuery q)
    (Query_OffsetQuery q) (Query_LimitQuery q) (Query_LockQuery q)
    (Query_SQLQuery q) (Query_UnscopedQuery q) (Query_ReloadQuery q)
    (Query_CascadeQuery q) (Query_PreloadQuery q) (Query_UsePrimaryDb q).

Definition set_SelectQuery (v : SelectQuery) (q : Query) : Query :=
  mkQuery (Query_empty q) (Query_Table q) v (Query_JoinQuery q)
    (Query_WhereQuery q) (Query_GroupQuery q) (Query_SortQuery q)
    (Query_OffsetQuery q) (Query_LimitQuery q) (Query_LockQuery q)
    (Query_SQLQuery q) (Query_UnscopedQuery q) (Query_ReloadQuery q)
    (Query_CascadeQuery q) (Query_PreloadQuery q) (Query_UsePrimaryDb q).

Definition set_JoinQuery (v : list JoinQuery) (q : Query) : Query :=
  mkQuery (Query_empty q) (Query_Table q) (Query_SelectQuery q) v
    (Query_WhereQuery q) (Query_GroupQuery q) (Query_SortQuery q)
    (Query_OffsetQuery q) (Query_LimitQuery q) (Query_LockQuery q)
    (Query_SQLQuery q) (Query_UnscopedQuery q) (Query_ReloadQuery q)
    (Query_CascadeQuery q) (Query_PreloadQuery q) (Query_UsePrimaryDb q).

Definition set_WhereQuery (v : FilterQuery) (q : Query) : Query :=
  mkQuery (Query_empty q) (Query_Table q) (Query_SelectQuery q) (Query_JoinQuery q)
    v (Query_GroupQuery q) (Query_SortQuery q)
    (Query_OffsetQuery q) (Query_LimitQuery q) (Query_LockQuery q)
    (Query_SQLQuery q) (Query_UnscopedQuery q) (Query_ReloadQuery q)
    (Query_CascadeQuery q) (Query_PreloadQuery q) (Query_UsePrimaryDb q).

Definition set_GroupQuery (v : GroupQuery) (q : Query) : Query :=
  mkQuery (Query_empty q) (Query_Table q) (Query_SelectQuery q) (Query_JoinQuery q)
    (Query_WhereQuery q) v (Query_SortQuery q)
    (Query_OffsetQuery q) (Query_LimitQuery q) (Query_LockQuery q)
    (Query_SQLQuery q) (Query_UnscopedQuery q) (Query_ReloadQuery q)
    (Query_CascadeQuery q) (Query_PreloadQuery q) (Query_UsePrimaryDb q).

Definition set_SortQuery (v : list SortQuery) (q : Query) : Query :=
  mkQuery (Query_empty q) (Query_Table q) (Query_SelectQuery q) (Query_JoinQuery q)
    (Query_WhereQuery q) (Query_GroupQuery q) v
    (Query_OffsetQuery q) (Query_LimitQuery q) (Query_LockQuery q)
    (Query_SQLQuery q) (Query_UnscopedQuery q) (Query_ReloadQuery q)
    (Query_CascadeQuery q) (Query_PreloadQuery q) (Query_UsePrimaryDb q).

Definition set_OffsetQuery (v : Offset) (q : Query) : Query :=
  mkQuery (Query_empty q) (Query_Table q) (Query_SelectQuery q) (Query_JoinQuery q)
    (Query_WhereQuery q) (Query_GroupQuery q) (Query_SortQuery q)
    v (Query_LimitQuery q) (Query_LockQuery q)
    (Query_SQLQuery q) (Query_UnscopedQuery q) (Query_ReloadQuery q)
    (Query_CascadeQuery q) (Query_PreloadQuery q) (Query_UsePrimaryDb q).

Definition set_LimitQuery (v : Limit) (q : Query) : Query :=
  mkQuery (Query_empty q) (Query_Table q) (Query_SelectQuery q) (Query_JoinQuery q)
    (Query_WhereQuery q) (Query_GroupQuery q) (Query_SortQuery q)
    (Query_OffsetQuery q) v (Query_LockQuery q)
    (Query_SQLQuery q) (Query_UnscopedQuery q) (Query_ReloadQuery q)
    (Query_CascadeQuery q) (Query_PreloadQuery q) (Query_UsePrimaryDb q).

Definition set_LockQuery (v : Lock) (q : Query) : Query :=
  mkQuery (Query_empty q) (Query_Table q) (Query_SelectQuery q) (Query_JoinQuery q)
    (Query_WhereQuery q) (Query_GroupQuery q) (Query_SortQuery q)
    (Query_OffsetQuery q) (Query_LimitQuery q) v
    (Query_SQLQuery q) (Query_UnscopedQuery q) (Query_ReloadQuery q)
    (Query_CascadeQuery q) (Query_PreloadQuery q) (Query_UsePrimaryDb q).

Definition set_SQLQuery (v : SQLQuery) (q : Query) : Query :=
  mkQuery (Query_empty q) (Query_Table q) (Query_SelectQuery q) (Query_JoinQuery q)
    (Query_WhereQuery q) (Query_GroupQuery q) (Query_SortQuery q)
    (Query_OffsetQuery q) (Query_LimitQuery q) (Query_LockQuery q)
    v (Query_UnscopedQuery q) (Query_ReloadQuery q)
    (Query_CascadeQuery q) (Query_PreloadQuery q) (Query_UsePrimaryDb q).

Definition set_UnscopedQuery (v : Unscoped) (q : Query) : Query :=
  mkQuery (Query_empty q) (Query_Table q) (Query_SelectQuery q) (Query_JoinQuery q)
    (Query_WhereQuery q) (Query_GroupQuery q) (Query_SortQuery q)
    (Query_OffsetQuery q) (Query_LimitQuery q) (Query_LockQuery q)
    (Query_SQLQuery q) v (Query_ReloadQuery q)
    (Query_CascadeQuery q) (Query_PreloadQuery q) (Query_UsePrimaryDb q).

Definition set_ReloadQuery (v : Reload) (q : Query) : Query :=
  mkQuery (Query_empty q) (Query_Table q) (Query_SelectQuery q) (Query_JoinQuery q)
    (Query_WhereQuery q) (Query_GroupQuery q) (Query_SortQuery q)
    (Query_OffsetQuery q) (Query_LimitQuery q) (Query_LockQuery q)
    (Query_SQLQuery q) (Query_UnscopedQuery q) v
    (Query_CascadeQuery q) (Query_PreloadQuery q) (Query_UsePrimaryDb q).

Definition set_CascadeQuery (v : Cascade) (q : Query) : Query :=
  mkQuery (Query_empty q) (Query_Table q) (Query_SelectQuery q) (Query_JoinQuery q)
    (Query_WhereQuery q) (Query_GroupQuery q) (Query_SortQuery q)
    (Query_OffsetQuery q) (Query_LimitQuery q) (Query_LockQuery q)
    (Query_SQLQuery q) (Query_UnscopedQuery q) (Query_ReloadQuery q)
    v (Query_PreloadQuery q) (Query_UsePrimaryDb q).

Definition set_PreloadQuery (v : list string) (q : Query) : Query :=
  mkQuery (Query_empty q) (Query_Table q) (Query_SelectQuery q) (Query_JoinQuery q)
    (Query_WhereQuery q) (Query_GroupQuery q) (Query_SortQuery q)
    (Query_OffsetQuery q) (Query_LimitQuery q) (Query_LockQuery q)
    (Query_SQLQuery q) (Query_UnscopedQuery q) (Query_ReloadQuery q)
    (Query_CascadeQuery q) v (Query_UsePrimaryDb q).

Definition set_UsePrimaryDb (v : bool) (q : Query) : Query :=
  mkQuery (Query_empty q) (Query_Table q) (Query_SelectQuery q) (Query_JoinQuery q)
    (Query_WhereQuery q) (Query_GroupQuery q) (Query_SortQuery q)
    (Query_OffsetQuery q) (Query_LimitQuery q) (Query_LockQuery q)
    (Query_SQLQuery q) (Query_UnscopedQuery q) (Query_ReloadQuery q)
    (Query_CascadeQuery q) (Query_PreloadQuery q) v.

(** [newQuery]. *)
Definition newQuery : Query := set_CascadeQuery true Query_zero.

(** ** The rest of the package *)

(** query.go calls methods and constructors of the package whose bodies are
    in files that are not part of the sources, and about which the spec says
    too little to write them down.  They are the members of this interface:
    whatever is proved below holds for every implementation of them.  A
    [Build] method takes the aggregate it updates and returns it. *)
Class Package : Type := {
  FilterQuery_String : FilterQuery -> string;
  FilterQuery_Build : FilterQuery -> Query -> Query;
  JoinQuery_Build : JoinQuery -> Query -> Query;
  GroupQuery_Build : GroupQuery -> Query -> Query;
  SortQuery_Build : SortQuery -> Query -> Query;
  SortQuery_Asc : SortQuery -> bool;
  SQLQuery_String : SQLQuery -> string;
  SQLQuery_Build : SQLQuery -> Query -> Query;
  Reload_Build : Reload -> Query -> Query;
  Cascade_Build : Cascade -> Query -> Query;
  NewSelect : slice string -> SelectQuery;
  NewJoinWith : string -> string -> string -> string -> list FilterQuery -> JoinQuery;
  NewJoinFragment : string -> list any -> JoinQuery;
  NewSortAsc : string -> SortQuery;
  NewSortDesc : string -> SortQuery
}.

(** ** The fragments defined in query.go *)

(** [func (o Offset) Build(query *Query)]. *)
Definition Offset_Build (o : Offset) (query : Query) : Query :=
  set_OffsetQuery o query.

(** [func (l Limit) Build(query *Query)]. *)
Definition Limit_Build (l : Limit) (query : Query) : Query :=
  set_LimitQuery l query.

(** [func (l Lock) Build(query *Query)]. *)
Definition Lock_Build (l : Lock) (query : Query) : Query :=
  set_LockQuery l query.

(** [func ForUpdate() Lock]. *)
Definition ForUpdate : Lock := "FOR UPDATE".

(** [func (u Unscoped) Build(query *Query)]. *)
Definition Unscoped_Build (u : Unscoped) (query : Query) : Query :=
  set_UnscopedQuery u query.

(** [func (p Preload) Build(query *Query)]. *)
Definition Preload_Build (p : Preload) (query : Query) : Query :=
  set_PreloadQuery (Query_PreloadQuery query ++ [p]) query.

(** [func (q Query) Build(query *Query)]: when the aggregate is marked empty
    it is overwritten by [q]; otherwise the manual merge assigns the fields
    below, each from its own statement of the source, and leaves the fields
    it does not mention ([empty], [SQLQuery], [UnscopedQuery],
    [PreloadQuery]) as they are in the aggregate. *)
Definition Query_Build (q : Query) (query : Query) : Query :=
  if Query_empty query then q
  else
    {| Query_empty := Query_empty query;
       Query_Table :=
         if negb (Query_Table q =? EmptyString)%string then Query_Table q else Query_Table query;
       Query_SelectQuery :=
         if negb (is_nil (SelectQuery_Fields (Query_SelectQuery q)))
         then Query_SelectQuery q else Query_SelectQuery query;
       Query_JoinQuery := Query_JoinQuery query ++ Query_JoinQuery q;
       Query_WhereQuery :=
         if negb (FilterQuery_None (Query_WhereQuery q))
         then FilterQuery_And (Query_WhereQuery query) [Query_WhereQuery q]
         else Query_WhereQuery query;
       Query_GroupQuery :=
         if negb (is_nil (GroupQuery_Fields (Query_GroupQuery q)))
         then Query_GroupQuery q else Query_GroupQuery query;
       Query_SortQuery := Query_SortQuery query ++ Query_SortQuery q;
       Query_OffsetQuery :=
         if negb (Query_OffsetQuery q =? 0)%Z then Query_OffsetQuery q else Query_OffsetQuery query;
       Query_LimitQuery :=
         if negb (Query_LimitQuery q =? 0)%Z then Query_LimitQuery q else Query_LimitQuery query;
       Query_LockQuery :=
         if negb (Query_LockQuery q =? EmptyString)%string then Query_LockQuery q else Query_LockQuery query;
       Query_SQLQuery := Query_SQLQuery query;
       Query_UnscopedQuery := Query_UnscopedQuery query;
       Query_ReloadQuery := Query_ReloadQuery query || Query_ReloadQuery q;
       Query_CascadeQuery := Query_CascadeQuery query || Query_CascadeQuery q;
       Query_PreloadQuery := Query_PreloadQuery query;
       Query_UsePrimaryDb := Query_UsePrimaryDb query || Query_UsePrimaryDb q |}.

(** ** The fold *)

(** A value of the interface [Querier]: one constructor for each dynamic type
    the type switch of [Build] names, [Querier_other] for a value of any other
    type that implements [Querier] ([build] is its own [Build] method), and
    [Querier_nil] for the nil interface value. *)
Inductive Querier : Type :=
| Querier_Query (q : Query)
| Querier_JoinQuery (q : JoinQuery)
| Querier_FilterQuery (q : FilterQuery)
| Querier_GroupQuery (q : GroupQuery)
| Querier_SortQuery (q : SortQuery)
| Querier_Offset (q : Offset)
| Querier_Limit (q : Limit)
| Querier_Lock (q : Lock)
| Querier_Unscoped (q : Unscoped)
| Querier_Reload (q : Reload)
| Querier_SQLQuery (q : SQLQuery)
| Querier_Preload (q : Preload)
| Querier_Cascade (q : Cascade)
| Querier_other (build : Query -> Query)
| Querier_nil.

(** The type assertion [querier.(Query)], its second result. *)
Definition is_Query (querier : Querier) : bool :=
  match querier with
  | Querier_Query _ => true
  | _ => false
  end.

Section Fold.
Context `{Package}.

(** The body of the loop of [Build]: the type switch.  It has no default
    case. *)
Definition Build_switch (query : Query) (querier : Querier) : Query :=
  match querier with
  | Querier_Query q => Query_Build q query
  | Querier_JoinQuery q => JoinQuery_Build q query
  | Querier_FilterQuery q => FilterQuery_Build q query
  | Querier_GroupQuery q => GroupQuery_Build q query
  | Querier_SortQuery q => SortQuery_Build q query
  | Querier_Offset q => Offset_Build q query
  | Querier_Limit q => Limit_Build q query
  | Querier_Lock q => Lock_Build q query
  | Querier_Unscoped q => Unscoped_Build q query
  | Querier_Reload q => Reload_Build q query
  | Querier_SQLQuery q => SQLQuery_Build q query
  | Querier_Preload q => Preload_Build q query
  | Querier_Cascade q => Cascade_Build q query
  | Querier_other _ => query
  | Querier_nil => query
  end.

(** [func Build(table string, queriers ...Querier) Query]. *)
Definition Build (table : string) (queriers : list Querier) : Query :=
  let query := newQuery in
  let query :=
    match queriers with
    | first :: _ => set_empty (is_Query first) query
    | [] => query
    end in
  let query := fold_left Build_switch queriers query in
  if (Query_Table query =? EmptyString)%string then set_Table table query else query.

(** ** The chainable builder methods *)

(** [func (q Query) Select(fields ...string) Query]. *)
Definition Query_Select (q : Query) (fields : slice string) : Query :=
  set_SelectQuery (NewSelect fields) q.

(** [func (q Query) From(table string) Query]. *)
Definition Query_From (q : Query) (table : string) : Query :=
  set_Table table q.

(** [func (q Query) Distinct() Query]. *)
Definition Query_Distinct (q : Query) : Query :=
  set_SelectQuery
    (mkSelectQuery true (SelectQuery_Fields (Query_SelectQuery q))) q.

(** [func (q Query) JoinWith(mode, table, from, to string, filter ...FilterQuery) Query]. *)
Definition Query_JoinWith (q : Query) (mode table from to : string)
    (filter : list FilterQuery) : Query :=
  JoinQuery_Build (NewJoinWith mode table from to filter) q.

(** [func (q Query) JoinOn(table, from, to string, filter ...FilterQuery) Query]. *)
Definition Query_JoinOn (q : Query) (table from to : string)
    (filter : list FilterQuery) : Query :=
  Query_JoinWith q "JOIN" table from to filter.

(** [func (q Query) Join(table string, filter ...FilterQuery) Query]. *)
Definition Query_Join (q : Query) (table : string) (filter : list FilterQuery) : Query :=
  Query_JoinOn q table EmptyString EmptyString filter.

(** [func (q Query) Joinf(expr string, args ...interface{}) Query]. *)
Definition Query_Joinf (q : Query) (expr : string) (args : list any) : Query :=
  JoinQuery_Build (NewJoinFragment expr args) q.

(** [func (q Query) Where(filters ...FilterQuery) Query]. *)
Definition Query_Where (q : Query) (filters : list FilterQuery) : Query :=
  set_WhereQuery (FilterQuery_And (Query_WhereQuery q) filters) q.

(** [func (q Query) Wheref(expr string, args ...interface{}) Query]. *)
Definition Query_Wheref (q : Query) (expr : string) (args : list any) : Query :=
  set_WhereQuery (FilterQuery_And (Query_WhereQuery q) [FilterFragment expr args]) q.

(** [func (q Query) OrWhere(filters ...FilterQuery) Query]. *)
Definition Query_OrWhere (q : Query) (filters : list FilterQuery) : Query :=
  set_WhereQuery (FilterQuery_Or (Query_WhereQuery q) [And filters]) q.

(** [func (q Query) OrWheref(expr string, args ...interface{}) Query]. *)
Definition Query_OrWheref (q : Query) (expr : string) (args : list any) : Query :=
  set_WhereQuery (FilterQuery_Or (Query_WhereQuery q) [FilterFragment expr args]) q.

(** [func (q Query) Group(fields ...string) Query]. *)
Definition Query_Group (q : Query) (fields : slice string) : Query :=
  set_GroupQuery (mkGroupQuery fields (GroupQuery_Filter (Query_GroupQuery q))) q.

(** [func (q Query) Having(filters ...FilterQuery) Query]. *)
Definition Query_Having (q : Query) (filters : list FilterQuery) : Query :=
  set_GroupQuery
    (mkGroupQuery (GroupQuery_Fields (Query_GroupQuery q))
       (FilterQuery_And (GroupQuery_Filter (Query_GroupQuery q)) filters)) q.

(** [func (q Query) Havingf(expr string, args ...interface{}) Query]. *)
Definition Query_Havingf (q : Query) (expr : string) (args : list any) : Query :=
  set_GroupQuery
    (mkGroupQuery (GroupQuery_Fields (Query_GroupQuery q))
       (FilterQuery_And (GroupQuery_Filter (Query_GroupQuery q))
          [FilterFragment expr args])) q.

(** [func (q Query) OrHaving(filters ...FilterQuery) Query]. *)
Definition Query_OrHaving (q : Query) (filters : list FilterQuery) : Query :=
  set_GroupQuery
    (mkGroupQuery (GroupQuery_Fields (Query_GroupQuery q))
       (FilterQuery_Or (GroupQuery_Filter (Query_GroupQuery q)) [And filters])) q.

(** [func (q Query) OrHavingf(expr string, args ...interface{}) Query]. *)
Definition Query_OrHavingf (q : Query) (expr : string) (args : list any) : Query :=
  set_GroupQuery
    (mkGroupQuery (GroupQuery_Fields (Query_GroupQuery q))
       (FilterQuery_Or (GroupQuery_Filter (Query_GroupQuery q))
          [FilterFragment expr args])) q.

(** [func (q Query) SortAsc(fields ...string) Query]: the sort list grows by
    one zero entry per field, and the loop then stores [NewSortAsc] of each
    field at its index. *)
Definition Query_SortAsc (q : Query) (fields : list string) : Query :=
  set_SortQuery (Query_SortQuery q ++ map NewSortAsc fields) q.

(** [func (q Query) Sort(fields ...string) Query]. *)
Definition Query_Sort (q : Query) (fields : list string) : Query :=
  Query_SortAsc q fields.

(** [func (q Query) SortDesc(fields ...string) Query]. *)
Definition Query_SortDesc (q : Query) (fields : list string) : Query :=
  set_SortQuery (Query_SortQuery q ++ map NewSortDesc fields) q.

(** [func (q Query) Offset(offset int) Query]. *)
Definition Query_Offset (q : Query) (offset : Z) : Query :=
  set_OffsetQuery offset q.

(** [func (q Query) Limit(limit int) Query]. *)
Definition Query_Limit (q : Query) (limit : Z) : Query :=
  set_LimitQuery limit q.

(** [func (q Query) Lock(lock string) Query]. *)
Definition Query_Lock (q : Query) (lock : string) : Query :=
  set_LockQuery lock q.

(** [func (q Query) Unscoped() Query]. *)
Definition Query_Unscoped (q : Query) : Query :=
  set_UnscopedQuery true q.

(** [func (q Query) Reload() Query]. *)
Definition Query_Reload (q : Query) : Query :=
  set_ReloadQuery true q.

(** [func (q Query) Cascade(c bool) Query]. *)
Definition Query_Cascade (q : Query) (c : bool) : Query :=
  set_CascadeQuery c q.

(** [func (q Query) Preload(field string) Query]. *)
Definition Query_Preload (q : Query) (field : string) : Query :=
  set_PreloadQuery (Query_PreloadQuery q ++ [field]) q.

(** [func (q Query) UsePrimary() Query]. *)
Definition Query_UsePrimary (q : Query) : Query :=
  set_UsePrimaryDb true q.

(** ** The free constructors *)


(** [func From(table string) Query]. *)
Definition From (table : string) : Query :=
  set_Table table newQuery.





(** [func Where(filters ...FilterQuery) Query]. *)
Definition Where (filters : list FilterQuery) : Query :=
  set_WhereQuery (And filters) newQuery.


End Fold.

(** ** Rendering *)

(** The statements of [String] write to one [strings.Builder].  A statement
    is read as a function from the content of the builder to its content
    afterwards; [seq], [when], [if_else] and [range] are Go's sequencing,
    [if], [if]/[else] and [for ... range]. *)
Definition stmt : Type := string -> string.

Definition Builder_WriteString (s : string) : stmt :=
  fun builder => (builder ++ s)%string.

Definition Builder_WriteByte (c : ascii) : stmt :=
  fun builder => (builder ++ String c EmptyString)%string.

Definition seq (p q : stmt) : stmt :=
  fun builder => q (p builder).

Definition when (c : bool) (p : stmt) : stmt :=
  fun builder => if c then p builder else builder.

Definition if_else (c : bool) (p q : stmt) : stmt :=
  fun builder => if c then p builder else q builder.

Definition range {A : Type} (l : list A) (body : A -> stmt) : stmt :=
  fun builder => fold_left (fun b x => body x b) l builder.

Notation "p ;; q" := (seq p q) (at level 61, right associativity).

(** [writes p s]: whatever the builder holds, statement [p] appends [s]. *)
Definition writes (p : stmt) (s : string) : Prop :=
  forall builder : string, p builder = (builder ++ s)%string.

Section Rendering.
Context `{Package}.

(** The statements of [func (q Query) String() string] between the early
    return for a raw SQL query and the final test. *)
Definition Query_String_statements (q : Query) : stmt :=
  Builder_WriteString "rel" ;;
  when (Query_UsePrimaryDb q)
    (Builder_WriteString ".UsePrimary()") ;;
  when (negb (Query_Table q =? EmptyString)%string)
    (Builder_WriteString (".From(" ++ dq) ;;
     Builder_WriteString (Query_Table q) ;;
     Builder_WriteString (dq ++ ")")) ;;
  when (negb (len (SelectQuery_Fields (Query_SelectQuery q)) =? 0)%nat)
    (Builder_WriteString (".Select(" ++ dq) ;;
     Builder_WriteString
       (strings_Join (elems (SelectQuery_Fields (Query_SelectQuery q))) (dq ++ ", " ++ dq)) ;;
     Builder_WriteString (dq ++ ")")) ;;
  when (SelectQuery_OnlyDistinct (Query_SelectQuery q))
    (Builder_WriteString ".Distinct()") ;;
  range (Query_JoinQuery q) (fun jq =>
    Builder_WriteString (".JoinWith(" ++ dq) ;;
    Builder_WriteString (JoinQuery_Mode jq) ;;
    Builder_WriteString (dq ++ ", " ++ dq) ;;
    Builder_WriteString (JoinQuery_Table jq) ;;
    Builder_WriteString (dq ++ ", " ++ dq) ;;
    Builder_WriteString (JoinQuery_From jq) ;;
    Builder_WriteString (dq ++ ", " ++ dq) ;;
    Builder_WriteString (JoinQuery_To jq) ;;
    Builder_WriteString (dq ++ ")")) ;;
  when (negb (FilterQuery_None (Query_WhereQuery q)))
    (Builder_WriteString ".Where(" ;;
     Builder_WriteString (FilterQuery_String (Query_WhereQuery q)) ;;
     Builder_WriteByte ")"%char) ;;
  when (negb (len (GroupQuery_Fields (Query_GroupQuery q)) =? 0)%nat)
    (Builder_WriteString (".Group(" ++ dq) ;;
     Builder_WriteString
       (strings_Join (elems (GroupQuery_Fields (Query_GroupQuery q))) (dq ++ ", " ++ dq)) ;;
     Builder_WriteString (dq ++ ")") ;;
     when (negb (FilterQuery_None (GroupQuery_Filter (Query_GroupQuery q))))
       (Builder_WriteString ".Having(" ;;
        Builder_WriteString (FilterQuery_String (GroupQuery_Filter (Query_GroupQuery q))) ;;
        Builder_WriteByte ")"%char)) ;;
  range (Query_SortQuery q) (fun sq =>
    if_else (SortQuery_Asc sq)
      (Builder_WriteString (".SortAsc(" ++ dq))
      (Builder_WriteString (".SortDesc(" ++ dq)) ;;
    Builder_WriteString (SortQuery_Field sq) ;;
    Builder_WriteString (dq ++ ")")) ;;
  when (0 <? Query_LimitQuery q)%Z
    (Builder_WriteString ".Limit(" ;;
     Builder_WriteString (strconv_Itoa (Query_LimitQuery q)) ;;
     Builder_WriteString ")") ;;
  when (0 <? Query_OffsetQuery q)%Z
    (Builder_WriteString ".Offset(" ;;
     Builder_WriteString (strconv_Itoa (Query_OffsetQuery q)) ;;
     Builder_WriteString ")") ;;
  when (negb (Query_LockQuery q =? EmptyString)%string)
    (Builder_WriteString (".Lock(" ++ dq) ;;
     Builder_WriteString (Query_LockQuery q) ;;
     Builder_WriteString (dq ++ ")")) ;;
  when (Query_UnscopedQuery q)
    (Builder_WriteString ".Unscoped()") ;;
  when (Query_ReloadQuery q)
    (Builder_WriteString ".Reload()") ;;
  when (negb (Query_CascadeQuery q))
    (Builder_WriteString ".Cascade(false)") ;;
  when (negb (length (Query_PreloadQuery q) =? 0)%nat)
    (Builder_WriteString (".Preload(" ++ dq) ;;
     Builder_WriteString (strings_Join (Query_PreloadQuery q) (dq ++ ", " ++ dq)) ;;
     Builder_WriteString (dq ++ ")")).

(** [func (q Query) String() string]. *)
Definition Query_String (q : Query) : string :=
  if negb (SQLQuery_Statement (Query_SQLQuery q) =? EmptyString)%string
  then SQLQuery_String (Query_SQLQuery q)
  else
    let str := Query_String_statements q EmptyString in
    if negb (str =? "rel")%string then str else EmptyString.

(** ** The clauses of a rendering *)

(** The builder calls a rendering is made of. *)
Inductive Clause : Type :=
| Clause_UsePrimary
| Clause_From (table : string)
| Clause_Select (fields : list string)
| Clause_Distinct
| Clause_JoinWith (mode table from to : string)
| Clause_Where (filter : FilterQuery)
| Clause_Group (fields : list string)
| Clause_Having (filter : FilterQuery)
| Clause_SortAsc (field : string)
| Clause_SortDesc (field : string)
| Clause_Limit (n : Z)
| Clause_Offset (n : Z)
| Clause_Lock (mode : string)
| Clause_Unscoped
| Clause_Reload
| Clause_Cascade_false
| Clause_Preload (fields : list string).

(** The text of a clause: a dot, the name of the call, and its arguments,
    strings between double quotes and numbers in decimal. *)
Definition emit (c : Clause) : string :=
  match c with
  | Clause_UsePrimary => ".UsePrimary()"
  | Clause_From table => ".From(" ++ dq ++ table ++ dq ++ ")"
  | Clause_Select fields =>
      ".Select(" ++ dq ++ String.concat (dq ++ ", " ++ dq) fields ++ dq ++ ")"
  | Clause_Distinct => ".Distinct()"
  | Clause_JoinWith mode table from to =>
      ".JoinWith(" ++ dq ++ mode ++ dq ++ ", " ++ dq ++ table ++ dq ++ ", " ++ dq
        ++ from ++ dq ++ ", " ++ dq ++ to ++ dq ++ ")"
  | Clause_Where filter => ".Where(" ++ FilterQuery_String filter ++ ")"
  | Clause_Group fields =>
      ".Group(" ++ dq ++ String.concat (dq ++ ", " ++ dq) fields ++ dq ++ ")"
  | Clause_Having filter => ".Having(" ++ FilterQuery_String filter ++ ")"
  | Clause_SortAsc field => ".SortAsc(" ++ dq ++ field ++ dq ++ ")"
  | Clause_SortDesc field => ".SortDesc(" ++ dq ++ field ++ dq ++ ")"
  | Clause_Limit n => ".Limit(" ++ strconv_Itoa n ++ ")"
  | Clause_Offset n => ".Offset(" ++ strconv_Itoa n ++ ")"
  | Clause_Lock mode => ".Lock(" ++ dq ++ mode ++ dq ++ ")"
  | Clause_Unscoped => ".Unscoped()"
  | Clause_Reload => ".Reload()"
  | Clause_Cascade_false => ".Cascade(false)"
  | Clause_Preload fields =>
      ".Preload(" ++ dq ++ String.concat (dq ++ ", " ++ dq) fields ++ dq ++ ")"
  end%string.

(** The concatenation of a list of strings. *)
Definition flatten (l : list string) : string :=
  fold_right String.append EmptyString l.

(** The text of a list of clauses after the root token, and the empty string
    for no clause. *)
Definition render (clauses : list Clause) : string :=
  match clauses with
  | [] => EmptyString
  | _ :: _ => ("rel" ++ flatten (map emit clauses))%string
  end.

(** [clause_if c x] is the clause [x] when [c] holds and no clause otherwise. *)
Definition clause_if (c : bool) (x : Clause) : list Clause :=
  if c then [x] else [].

(** The clause of one sort. *)
Definition sort_clause (sq : SortQuery) : Clause :=
  if SortQuery_Asc sq then Clause_SortAsc (SortQuery_Field sq)
  else Clause_SortDesc (SortQuery_Field sq).

(** The clause of one join. *)
Definition join_clause (jq : JoinQuery) : Clause :=
  Clause_JoinWith (JoinQuery_Mode jq) (JoinQuery_Table jq) (JoinQuery_From jq)
    (JoinQuery_To jq).

(** The clauses of a query in the order section 4.5 of the spec gives:
    UsePrimary, From, Select, Distinct, the joins, Where, Group with its
    nested Having, the sorts, Limit, Offset, Lock, Unscoped, Reload,
    Cascade(false), Preload. *)
Definition Query_clauses (q : Query) : list Clause :=
  clause_if (Query_UsePrimaryDb q) Clause_UsePrimary
  ++ clause_if (negb (Query_Table q =? EmptyString)%string) (Clause_From (Query_Table q))
  ++ clause_if (negb (len (SelectQuery_Fields (Query_SelectQuery q)) =? 0)%nat)
       (Clause_Select (elems (SelectQuery_Fields (Query_SelectQuery q))))
  ++ clause_if (SelectQuery_OnlyDistinct (Query_SelectQuery q)) Clause_Distinct
  ++ map join_clause (Query_JoinQuery q)
  ++ clause_if (negb (FilterQuery_None (Query_WhereQuery q)))
       (Clause_Where (Query_WhereQuery q))
  ++ (if negb (len (GroupQuery_Fields (Query_GroupQuery q)) =? 0)%nat
      then Clause_Group (elems (GroupQuery_Fields (Query_GroupQuery q)))
           :: clause_if (negb (FilterQuery_None (GroupQuery_Filter (Query_GroupQuery q))))
                (Clause_Having (GroupQuery_Filter (Query_GroupQuery q)))
      else [])
  ++ map sort_clause (Query_SortQuery q)
  ++ clause_if (0 <? Query_LimitQuery q)%Z (Clause_Limit (Query_LimitQuery q))
  ++ clause_if (0 <? Query_OffsetQuery q)%Z (Clause_Offset (Query_OffsetQuery q))
  ++ clause_if (negb (Query_LockQuery q =? EmptyString)%string) (Clause_Lock (Query_LockQuery q))
  ++ clause_if (Query_UnscopedQuery q) Clause_Unscoped
  ++ clause_if (Query_ReloadQuery q) Clause_Reload
  ++ clause_if (negb (Query_CascadeQuery q)) Clause_Cascade_false
  ++ clause_if (negb (length (Query_PreloadQuery q) =? 0)%nat)
       (Clause_Preload (Query_PreloadQuery q)).

End Rendering.


(** ** Fresh queries *)

(** The fragments that carry neither a query nor a cascade directive and
    that query.go itself applies or skips: the pagination, lock, unscoped and
    preload fragments, and the values the type switch does not name. *)
Definition plain (querier : Querier) : bool :=
  match querier with
  | Querier_Offset _ | Querier_Limit _ | Querier_Lock _ | Querier_Unscoped _
  | Querier_Preload _ | Querier_other _ | Querier_nil => true
  | _ => false
  end.

Section Fresh.
Context `{Package}.



End Fresh.

(** ** Sample values *)

(** One implementation of the interface [Package], on which the definitions
    are evaluated at concrete inputs.  No general statement rests on it. *)
Definition example_Package : Package :=
  {| FilterQuery_String := fun fq =>
       match fq with
       | FilterPredicate field op _ => (field ++ " " ++ op ++ " ?")%string
       | FilterRaw expr _ => expr
       | _ => "..."%string
       end;
     FilterQuery_Build := fun fq query =>
       set_WhereQuery (FilterQuery_And (Query_WhereQuery query) [fq]) query;
     JoinQuery_Build := fun jq query =>
       set_JoinQuery (Query_JoinQuery query ++ [jq]) query;
     GroupQuery_Build := set_GroupQuery;
     SortQuery_Build := fun sq query =>
       set_SortQuery (Query_SortQuery query ++ [sq]) query;
     SortQuery_Asc := fun sq => (0 <=? SortQuery_Sort sq)%Z;
     SQLQuery_String := SQLQuery_Statement;
     SQLQuery_Build := set_SQLQuery;
     Reload_Build := set_ReloadQuery;
     Cascade_Build := set_CascadeQuery;
     NewSelect := mkSelectQuery false;
     NewJoinWith := fun mode table from to filter =>
       mkJoinQuery mode table from to (And filter);
     NewJoinFragment := fun expr args =>
       mkJoinQuery expr EmptyString EmptyString EmptyString (FilterFragment expr args);
     NewSortAsc := fun field => mkSortQuery field 1;
     NewSortDesc := fun field => mkSortQuery field (-1) |}.

(** Three predicates. *)
Definition pred_a : FilterQuery := FilterPredicate "completed" "=" (any_bool true).
Definition pred_b : FilterQuery := FilterPredicate "order" ">" (any_int 3).
Definition pred_c : FilterQuery := FilterRaw "title LIKE ?" [any_string "%go%"].

(** An aggregate that is not marked empty, with one join, one sort, one
    preload and a select. *)
Definition sample_target : Query :=
  set_SelectQuery (mkSelectQuery false (Some ["y"]))
    (set_JoinQuery [mkJoinQuery "JOIN" "users" "user_id" "id" FilterNone]
       (set_SortQuery [mkSortQuery "id" 1]
          (set_PreloadQuery ["owner"] (set_Table "todos" newQuery)))).

(** A fragment query with one join, one sort, one preload, a select and the
    unscoped flag. *)
Definition sample_fragment : Query :=
  set_SelectQuery (mkSelectQuery false (Some ["x"]))
    (set_JoinQuery [mkJoinQuery "LEFT JOIN" "tags" "tag_id" "id" FilterNone]
       (set_SortQuery [mkSortQuery "title" (-1)]
          (set_PreloadQuery ["tags"] (set_UnscopedQuery true newQuery)))).

(** A fragment query whose select fields are an empty slice that is not
    nil, as [Select(fields...)] returns for [fields := []string{}]. *)
Definition sample_empty_select : Query :=
  set_SelectQuery (mkSelectQuery false (Some [])) newQuery.

(** The chain From(todos).Where(completed = true).SortAsc(id).Limit(20). *)
Definition sample_chain : Query :=
  Query_Limit
    (@Query_SortAsc example_Package
       (Query_Where (From "todos") [pred_a]) ["id"%string]) 20.

(** Two queries that hold the same raw SQL statement and differ in their
    table. *)
Definition sample_raw (table : string) : Query :=
  set_SQLQuery (mkSQLQuery "SELECT 1" []) (set_Table table newQuery).

(** ** Fragment lists *)

(** A fragment that query.go folds by itself and that cannot mark the
    aggregate empty: a plain fragment, or a query that is not marked empty. *)
Definition unmarked (querier : Querier) : bool :=
  match querier with
  | Querier_Query q => negb (Query_empty q)
  | _ => plain querier
  end.

(** The preload fragments of a list, in their order. *)
Definition preloads_of (queriers : list Querier) : list string :=
  flat_map (fun querier =>
              match querier with
              | Querier_Preload p => [p]
              | _ => []
              end) queriers.

(** The dynamic type of a fragment is [Limit]. *)
Definition is_Limit (querier : Querier) : bool :=
  match querier with
  | Querier_Limit _ => true
  | _ => false
  end.

(** Every guard and every appended list of the merge in [Query.Build] is
    without effect for [q]: no table, nil select and group fields, no join,
    a where-clause that is none, no sort, zero offset and limit, no lock, and
    the reload, cascade and use-primary flags unset. *)
Definition sets_nothing (q : Query) : bool :=
  (Query_Table q =? EmptyString)%string
  && is_nil (SelectQuery_Fields (Query_SelectQuery q))
  && (length (Query_JoinQuery q) =? 0)%nat
  && FilterQuery_None (Query_WhereQuery q)
  && is_nil (GroupQuery_Fields (Query_GroupQuery q))
  && (length (Query_SortQuery q) =? 0)%nat
  && (Query_OffsetQuery q =? 0)%Z
  && (Query_LimitQuery q =? 0)%Z
  && (Query_LockQuery q =? EmptyString)%string
  && negb (Query_ReloadQuery q)
  && negb (Query_CascadeQuery q)
  && negb (Query_UsePrimaryDb q).

(** * Properties *)

(** ** Strings *)

Lemma append_nil_r (s : string) : (s ++ EmptyString)%string = s.
Proof.
  induction s as [|c s IH]; simpl; [reflexivity | now rewrite IH].
Qed.

Lemma append_assoc (s t u : string) : ((s ++ t) ++ u)%string = (s ++ (t ++ u))%string.
Proof.
  induction s as [|c s IH]; simpl; [reflexivity | now rewrite IH].
Qed.

Lemma flatten_app (l1 l2 : list string) :
  flatten (l1 ++ l2) = (flatten l1 ++ flatten l2)%string.
Proof.
  induction l1 as [|x l1 IH]; simpl; [reflexivity|].
  now rewrite IH, append_assoc.
Qed.



(** ** Statements and what they write *)

Lemma writes_WriteString (s : string) : writes (Builder_WriteString s) s.
Proof. intros b. reflexivity. Qed.

Lemma writes_WriteByte (c : ascii) :
  writes (Builder_WriteByte c) (String c EmptyString).
Proof. intros b. reflexivity. Qed.

Lemma writes_seq (p q : stmt) (s t : string) :
  writes p s -> writes q t -> writes (p ;; q) (s ++ t).
Proof.
  intros Hp Hq b. unfold seq. now rewrite Hp, Hq, append_assoc.
Qed.

Lemma writes_when (c : bool) (p : stmt) (s : string) :
  writes p s -> writes (when c p) (if c then s else EmptyString).
Proof.
  intros Hp b. unfold when. destruct c; [apply Hp | now rewrite append_nil_r].
Qed.

Lemma writes_if_else (c : bool) (p q : stmt) (s t : string) :
  writes p s -> writes q t -> writes (if_else c p q) (if c then s else t).
Proof.
  intros Hp Hq b. unfold if_else. destruct c; [apply Hp | apply Hq].
Qed.

Lemma writes_range {A : Type} (l : list A) (body : A -> stmt) (f : A -> string) :
  (forall x, writes (body x) (f x)) -> writes (range l body) (flatten (map f l)).
Proof.
  intros Hbody. unfold range.
  induction l as [|x l IH]; intros b; simpl.
  - now rewrite append_nil_r.
  - now rewrite IH, Hbody, append_assoc.
Qed.

Lemma writes_eq (p : stmt) (s t : string) : writes p s -> s = t -> writes p t.
Proof. now intros Hp <-. Qed.

Create HintDb writes.
#[local] Hint Resolve writes_WriteString writes_WriteByte writes_seq writes_if_else : writes.

(** A run of writes, up to the bracketing of the text written. *)
Ltac writes_text :=
  eapply writes_eq;
  [ solve [eauto 20 with writes]
  | unfold strings_Join, dq; cbn [String.append]; rewrite ?append_assoc; reflexivity ].

Section RenderingFacts.
Context `{Package}.

Lemma writes_clause_if (c : bool) (p : stmt) (x : Clause) :
  writes p (emit x) -> writes (when c p) (flatten (map emit (clause_if c x))).
Proof.
  intros Hp. eapply writes_eq; [apply writes_when, Hp|].
  destruct c; simpl; [now rewrite append_nil_r | reflexivity].
Qed.

Lemma emit_starts_with_dot (c : Clause) :
  exists s : string, emit c = String "."%char s.
Proof.
  destruct c; simpl; eexists; reflexivity.
Qed.

(** The statements of [String] write the root token and then the text of the
    clauses of the query, in their order. *)
Lemma Query_String_statements_writes (q : Query) :
  writes (Query_String_statements q)
    ("rel" ++ flatten (map emit (Query_clauses q))).
Proof.
  unfold Query_String_statements, Query_clauses.
  rewrite !map_app, !flatten_app, !map_map.
  apply writes_seq; [apply writes_WriteString|].
  repeat (apply writes_seq;
          [ first [ apply writes_clause_if; unfold emit; writes_text
                  | apply writes_range; intros x; unfold emit, join_clause; writes_text
                  | idtac ] | ]).
  all: try (apply writes_clause_if; unfold emit; writes_text).
  - (* Group and its nested Having *)
    destruct (negb (len (GroupQuery_Fields (Query_GroupQuery q)) =? 0)%nat).
    + eapply writes_eq.
      * apply (writes_when true).
        apply writes_seq; [apply writes_WriteString|].
        apply writes_seq; [apply writes_WriteString|].
        apply writes_seq; [apply writes_WriteString|].
        apply (writes_clause_if _ _
                 (Clause_Having (GroupQuery_Filter (Query_GroupQuery q)))).
        unfold emit. writes_text.
      * cbn [map flatten fold_right emit]. unfold strings_Join, dq.
        cbn [String.append]. rewrite ?append_assoc. reflexivity.
    + intros b. unfold when. simpl. now rewrite append_nil_r.
  - (* the sorts *)
    apply writes_range. intros sq. unfold sort_clause.
    destruct (SortQuery_Asc sq); unfold emit; writes_text.
Qed.

End RenderingFacts.

(** ** The filter algebra *)

Lemma and_combine_None_l (f : FilterQuery) : and_combine FilterNone f = f.
Proof. reflexivity. Qed.

Lemma And_singleton (f : FilterQuery) : And [f] = f.
Proof. reflexivity. Qed.

Lemma and_combine_atomic (a b : FilterQuery) :
  atomic a = true -> atomic b = true -> and_combine a b = FilterAnd [a; b].
Proof.
  destruct a; try discriminate; destruct b; try discriminate; reflexivity.
Qed.

Lemma or_combine_and_atomic (l : list FilterQuery) (c : FilterQuery) :
  atomic c = true -> or_combine (FilterAnd l) c = FilterOr [FilterAnd l; c].
Proof.
  destruct c; try discriminate; reflexivity.
Qed.

Lemma or_combine_atomic (b c : FilterQuery) :
  atomic b = true -> atomic c = true -> or_combine b c = FilterOr [b; c].
Proof.
  destruct b; try discriminate; destruct c; try discriminate; reflexivity.
Qed.

(** ** Where and OrWhere *)

(** C1.  OrWhere and OrWheref combine the whole where-clause accumulated so
    far with the new predicate by OR: for every query the new where-clause is
    the old one or-combined with the conjunction of the arguments (with the
    raw fragment, for OrWheref).  Hence for all filters a, b and c the
    where-clause of Where(a).Where(b).OrWhere(c) is (a AND b) OR c; when the
    three are predicates or raw fragments it is the tree Or[And[a, b], c],
    which is not the tree of a AND (b OR c). *)
Theorem OrWhere_ors_whole_where_clause :
  (forall (q : Query) (filters : list FilterQuery),
      Query_WhereQuery (Query_OrWhere q filters)
      = or_combine (Query_WhereQuery q) (And filters))
  /\ (forall (q : Query) (expr : string) (args : list any),
      Query_WhereQuery (Query_OrWheref q expr args)
      = or_combine (Query_WhereQuery q) (FilterFragment expr args))
  /\ (forall a b c : FilterQuery,
      Query_WhereQuery (Query_OrWhere (Query_Where (Where [a]) [b]) [c])
      = or_combine (and_combine a b) c)
  /\ (forall a b c : FilterQuery,
      atomic a = true -> atomic b = true -> atomic c = true ->
      Query_WhereQuery (Query_OrWhere (Query_Where (Where [a]) [b]) [c])
      = FilterOr [FilterAnd [a; b]; c]
      /\ Query_WhereQuery (Query_OrWhere (Query_Where (Where [a]) [b]) [c])
         <> and_combine a (or_combine b c)).
Proof.
  assert (Hchain : forall a b c : FilterQuery,
             Query_WhereQuery (Query_OrWhere (Query_Where (Where [a]) [b]) [c])
             = or_combine (and_combine a b) c) by reflexivity.
  split; [reflexivity|]. split; [reflexivity|]. split; [exact Hchain|].
  intros a b c Ha Hb Hc.
  rewrite Hchain, (and_combine_atomic a b), or_combine_and_atomic by assumption.
  split; [reflexivity|].
  rewrite (or_combine_atomic b c) by assumption.
  destruct a; try discriminate; cbn; discriminate.
Qed.

(** ** The merge *)

Lemma Query_Build_empty (q query : Query) :
  Query_empty query = true -> Query_Build q query = q.
Proof.
  intros He. unfold Query_Build. now rewrite He.
Qed.

(** C2, as amended.  When a query fragment is merged into an aggregate that
    is not marked empty, the join list and the sort list of the result are
    those of the aggregate followed by those of the fragment; the preload
    list of the result is that of the aggregate: the preloads of the fragment
    are not merged. *)
Theorem Query_Build_appends_joins_and_sorts (q query : Query) :
  Query_empty query = false ->
  Query_JoinQuery (Query_Build q query) = Query_JoinQuery query ++ Query_JoinQuery q
  /\ Query_SortQuery (Query_Build q query) = Query_SortQuery query ++ Query_SortQuery q
  /\ Query_PreloadQuery (Query_Build q query) = Query_PreloadQuery query.
Proof.
  intros He. unfold Query_Build. rewrite He. cbn. auto.
Qed.

(** C6, as amended.  When a query fragment is merged into an aggregate that
    is not marked empty, the select of the result is the whole select of the
    fragment when the fragment's select fields are not the nil slice, and the
    select of the aggregate when they are nil; the same holds for the group.
    In particular non-empty fields of the fragment always replace, and by
    themselves, with no union or append. *)
Theorem Query_Build_replaces_select_and_group (q query : Query) :
  Query_empty query = false ->
  Query_SelectQuery (Query_Build q query)
  = (if is_nil (SelectQuery_Fields (Query_SelectQuery q))
     then Query_SelectQuery query else Query_SelectQuery q)
  /\ Query_GroupQuery (Query_Build q query)
     = (if is_nil (GroupQuery_Fields (Query_GroupQuery q))
        then Query_GroupQuery query else Query_GroupQuery q)
  /\ (0 < len (SelectQuery_Fields (Query_SelectQuery q)) ->
      Query_SelectQuery (Query_Build q query) = Query_SelectQuery q)
  /\ (0 < len (GroupQuery_Fields (Query_GroupQuery q)) ->
      Query_GroupQuery (Query_Build q query) = Query_GroupQuery q).
Proof.
  intros He. unfold Query_Build. rewrite He. cbn.
  destruct (SelectQuery_Fields (Query_SelectQuery q)) as [fs|];
    destruct (GroupQuery_Fields (Query_GroupQuery q)) as [gs|]; cbn;
    repeat split; auto; intros Hlen; inversion Hlen.
Qed.

(** C9.  When a query fragment is merged into an aggregate that is not
    marked empty, the unscoped flag of the result is that of the aggregate,
    whatever the flag of the fragment; folding a bare Unscoped fragment sets
    the flag of the aggregate to the fragment's value. *)
Theorem Query_Build_keeps_Unscoped (q query : Query) :
  Query_empty query = false ->
  Query_UnscopedQuery (Query_Build q query) = Query_UnscopedQuery query
  /\ (forall u : Unscoped,
         Query_UnscopedQuery (Unscoped_Build u query) = u).
Proof.
  intros He. unfold Query_Build. rewrite He. split; reflexivity.
Qed.

(** ** The fold *)

Section FoldFacts.
Context `{Package}.

Lemma fold_left_Build_switch_app (l1 l2 : list Querier) (query : Query) :
  fold_left Build_switch (l1 ++ l2) query
  = fold_left Build_switch l2 (fold_left Build_switch l1 query).
Proof. apply fold_left_app. Qed.

(** C4.  When the first fragment is a query value the fold marks the fresh
    aggregate as empty; a query fragment folded into an aggregate marked
    empty becomes the aggregate as a whole, every field included; so the
    result of the fold is what the remaining fragments make of that first
    query, with the table defaulted at the end. *)
Theorem Build_first_Query_replaces (table : string) (q : Query) (rest : list Querier) :
  Query_empty (set_empty (is_Query (Querier_Query q)) newQuery) = true
  /\ (forall query : Query, Query_Build q (set_empty true query) = q)
  /\ Build_switch (set_empty (is_Query (Querier_Query q)) newQuery) (Querier_Query q) = q
  /\ Build table (Querier_Query q :: rest)
     = (let query := fold_left Build_switch rest q in
        if (Query_Table query =? EmptyString)%string then set_Table table query else query).
Proof.
  repeat split; reflexivity.
Qed.

(** C8.  The fold is a function from every table and every list of fragments
    to a query.  A fragment of a type the switch does not name, and a nil
    fragment, leave the aggregate as it is: the loop body returns the
    aggregate it was given, without calling the fragment's own Build; such a
    fragment after the first position can be removed from the list without
    changing the result, and in the first position the result is the fold of
    the remaining fragments over the fresh aggregate. *)
Theorem Build_skips_unrecognized :
  (forall (table : string) (queriers : list Querier),
      exists query : Query, Build table queriers = query)
  /\ (forall (build : Query -> Query) (query : Query),
      Build_switch query (Querier_other build) = query)
  /\ (forall query : Query, Build_switch query Querier_nil = query)
  /\ (forall (table : string) (first : Querier) (pre post : list Querier)
             (build : Query -> Query),
      Build table (first :: pre ++ Querier_other build :: post)
      = Build table (first :: pre ++ post))
  /\ (forall (table : string) (post : list Querier) (build : Query -> Query),
      Build table (Querier_other build :: post)
      = (let query := fold_left Build_switch post newQuery in
         if (Query_Table query =? EmptyString)%string then set_Table table query else query)).
Proof.
  split; [intros table queriers; eexists; reflexivity|].
  split; [reflexivity|]. split; [reflexivity|]. split; [|reflexivity].
  intros table first pre post build. unfold Build.
  cbn [fold_left]. rewrite !fold_left_Build_switch_app. reflexivity.
Qed.

End FoldFacts.

(** ** The rendering *)

Section StringFacts.
Context `{Package}.

Lemma render_nil_iff (clauses : list Clause) :
  render clauses = EmptyString <-> clauses = [].
Proof.
  destruct clauses as [|c l]; cbn; split; congruence.
Qed.

(** Without a raw SQL statement, [String] is the rendering of the clauses of
    the query. *)
Lemma Query_String_builder (q : Query) :
  SQLQuery_Statement (Query_SQLQuery q) = EmptyString ->
  Query_String q = render (Query_clauses q).
Proof.
  intros Hs. unfold Query_String. rewrite Hs. cbn [String.eqb negb].
  rewrite (Query_String_statements_writes q EmptyString).
  destruct (Query_clauses q) as [|c l].
  - reflexivity.
  - cbn [map flatten fold_right render].
    destruct (emit_starts_with_dot c) as [s ->]. reflexivity.
Qed.

(** With a raw SQL statement, [String] is the rendering of that statement. *)
Lemma Query_String_raw (q : Query) :
  SQLQuery_Statement (Query_SQLQuery q) <> EmptyString ->
  Query_String q = SQLQuery_String (Query_SQLQuery q).
Proof.
  intros Hs. unfold Query_String.
  apply String.eqb_neq in Hs. now rewrite Hs.
Qed.




(** ** Fresh queries *)

Lemma plain_Build_switch (querier : Querier) (query : Query) :
  plain querier = true ->
  Query_CascadeQuery (Build_switch query querier) = Query_CascadeQuery query
  /\ Query_SQLQuery (Build_switch query querier) = Query_SQLQuery query.
Proof.
  destruct querier; cbn; intros Hp; try discriminate; auto.
Qed.

Lemma plain_fold (queriers : list Querier) (query : Query) :
  forallb plain queriers = true ->
  Query_CascadeQuery (fold_left Build_switch queriers query) = Query_CascadeQuery query
  /\ Query_SQLQuery (fold_left Build_switch queriers query) = Query_SQLQuery query.
Proof.
  revert query. induction queriers as [|x l IH]; intros query Hp; cbn in *.
  - auto.
  - apply andb_true_iff in Hp. destruct Hp as [Hx Hl].
    destruct (IH (Build_switch query x) Hl) as [-> ->].
    now apply plain_Build_switch.
Qed.








(** ** The claims on the rendering *)

(** C3, as amended.  Build with a table and no fragment returns the query
    whose table is the given one, whose cascade flag is true and whose other
    fields are all at their zero values.  Its String is the empty string only
    for the empty table; for the table todos it is the root token followed by
    the From clause of todos. *)
Theorem Build_without_fragments (table : string) :
  Build table []
  = {| Query_empty := false;
       Query_Table := table;
       Query_SelectQuery := mkSelectQuery false None;
       Query_JoinQuery := [];
       Query_WhereQuery := FilterNone;
       Query_GroupQuery := mkGroupQuery None FilterNone;
       Query_SortQuery := [];
       Query_OffsetQuery := 0%Z;
       Query_LimitQuery := 0%Z;
       Query_LockQuery := EmptyString;
       Query_SQLQuery := mkSQLQuery EmptyString [];
       Query_UnscopedQuery := false;
       Query_ReloadQuery := false;
       Query_CascadeQuery := true;
       Query_PreloadQuery := [];
       Query_UsePrimaryDb := false |}
  /\ Query_String (Build table [])
     = (if (table =? EmptyString)%string then EmptyString
        else "rel.From(" ++ dq ++ table ++ dq ++ ")")%string
  /\ Query_String (Build "todos" []) = ("rel.From(" ++ dq ++ "todos" ++ dq ++ ")")%string.
Proof.
  assert (Hs : forall t : string,
             Query_String (Build t [])
             = (if (t =? EmptyString)%string then EmptyString
                else "rel.From(" ++ dq ++ t ++ dq ++ ")")%string).
  { intros t. rewrite Query_String_builder by reflexivity.
    unfold Query_clauses, Build. cbn.
    destruct (t =? EmptyString)%string; cbn; [reflexivity|].
    now rewrite append_nil_r. }
  split; [reflexivity|]. split; [apply Hs|]. apply (Hs "todos"%string).
Qed.

(** C5, as amended.  For every query that holds no raw SQL statement, String
    is the root token followed by the clauses of the query in the order
    UsePrimary, From, Select, Distinct, one JoinWith per join in insertion
    order, Where, Group with its nested Having, one SortAsc or SortDesc per
    sort in insertion order, Limit, Offset, Lock, Unscoped, Reload,
    Cascade(false), Preload; and it is the empty string, not the bare root
    token, exactly when the query has no clause. *)
Theorem Query_String_clause_order (q : Query) :
  SQLQuery_Statement (Query_SQLQuery q) = EmptyString ->
  Query_String q
  = match Query_clauses q with
    | [] => EmptyString
    | _ :: _ => ("rel" ++ flatten (map emit (Query_clauses q)))%string
    end
  /\ (Query_String q = EmptyString <-> Query_clauses q = []).
Proof.
  intros Hs. rewrite (Query_String_builder q Hs). split.
  - unfold render. destruct (Query_clauses q); reflexivity.
  - apply render_nil_iff.
Qed.


(** C10.  For every query whose raw SQL statement is not the empty string,
    String is the rendering of the raw SQL query itself: no builder clause is
    written, and no other field of the query has any part in the result. *)
Theorem Query_String_raw_SQL (q : Query) :
  SQLQuery_Statement (Query_SQLQuery q) <> EmptyString ->
  Query_String q = SQLQuery_String (Query_SQLQuery q)
  /\ (forall q' : Query,
         Query_SQLQuery q' = Query_SQLQuery q -> Query_String q' = Query_String q).
Proof.
  intros Hs. split; [apply Query_String_raw, Hs|].
  intros q' Heq. rewrite !Query_String_raw; rewrite ?Heq; auto.
Qed.

End StringFacts.

(** ** The claims at concrete inputs *)

Lemma OrWhere_ors_whole_where_clause_witness :
  atomic pred_a = true /\ atomic pred_b = true /\ atomic pred_c = true
  /\ Query_WhereQuery (Query_OrWhere (Query_Where (Where [pred_a]) [pred_b]) [pred_c])
     = FilterOr [FilterAnd [pred_a; pred_b]; pred_c].
Proof.
  split; [reflexivity|]. split; [reflexivity|]. split; [reflexivity|].
  exact (proj1 (proj2 (proj2 (proj2 OrWhere_ors_whole_where_clause))
                  pred_a pred_b pred_c eq_refl eq_refl eq_refl)).
Defined.

(** The claim C2 as first stated fails: the preloads of a merged fragment are
    not appended to those of the aggregate. *)
Lemma Query_Build_drops_fragment_preloads :
  Query_empty sample_target = false
  /\ Query_PreloadQuery (Query_Build sample_fragment sample_target)
     <> Query_PreloadQuery sample_target ++ Query_PreloadQuery sample_fragment.
Proof.
  split; [reflexivity|]. cbn. discriminate.
Qed.

Lemma Query_Build_appends_joins_and_sorts_witness :
  Query_empty sample_target = false
  /\ Query_JoinQuery (Query_Build sample_fragment sample_target)
     = [mkJoinQuery "JOIN" "users" "user_id" "id" FilterNone;
        mkJoinQuery "LEFT JOIN" "tags" "tag_id" "id" FilterNone]
  /\ Query_SortQuery (Query_Build sample_fragment sample_target)
     = [mkSortQuery "id" 1; mkSortQuery "title" (-1)]
  /\ Query_PreloadQuery (Query_Build sample_fragment sample_target) = ["owner"%string].
Proof.
  split; [reflexivity|].
  exact (Query_Build_appends_joins_and_sorts sample_fragment sample_target eq_refl).
Defined.

(** The claim C3 as first stated fails: whatever the rest of the package
    does, the String of Build(todos) is not the empty string. *)
Lemma Build_todos_String_not_empty :
  ~ (exists pkg : Package,
        @Query_String pkg (@Build pkg "todos" []) = EmptyString).
Proof.
  intros [pkg Hs].
  rewrite Query_String_builder in Hs by reflexivity.
  cbn in Hs. discriminate.
Qed.

(** The claim C5 as first stated fails: two queries with the same raw SQL
    statement have the same String, whatever the rest of the package does,
    and their clauses differ. *)
Lemma String_of_raw_SQL_ignores_clauses :
  ~ (exists pkg : Package,
        @Query_String pkg (sample_raw "a") = @render pkg (@Query_clauses pkg (sample_raw "a"))
        /\ @Query_String pkg (sample_raw "b") = @render pkg (@Query_clauses pkg (sample_raw "b"))).
Proof.
  intros (pkg & Ha & Hb).
  rewrite Query_String_raw in Ha, Hb by (cbn; discriminate).
  cbn in Ha, Hb. rewrite Ha in Hb. discriminate.
Qed.

Lemma Query_String_clause_order_witness :
  SQLQuery_Statement (Query_SQLQuery sample_chain) = EmptyString
  /\ @Query_String example_Package sample_chain
     = ("rel.From(" ++ dq ++ "todos" ++ dq ++ ").Where(completed = ?).SortAsc("
        ++ dq ++ "id" ++ dq ++ ").Limit(20)")%string.
Proof.
  split; [reflexivity|].
  rewrite (proj1 (@Query_String_clause_order example_Package sample_chain eq_refl)).
  reflexivity.
Defined.

(** The claim C6 as first stated fails: select fields that are empty and
    not nil replace the select of the aggregate. *)
Lemma Query_Build_empty_select_replaces :
  Query_empty sample_target = false
  /\ len (SelectQuery_Fields (Query_SelectQuery sample_empty_select)) = 0
  /\ Query_SelectQuery (Query_Build sample_empty_select sample_target)
     <> Query_SelectQuery sample_target.
Proof.
  split; [reflexivity|]. split; [reflexivity|]. cbn. discriminate.
Qed.

Lemma Query_Build_replaces_select_and_group_witness :
  Query_empty sample_target = false
  /\ Query_SelectQuery (Query_Build sample_fragment sample_target)
     = mkSelectQuery false (Some ["x"%string])
  /\ Query_GroupQuery (Query_Build sample_fragment sample_target)
     = Query_GroupQuery sample_target.
Proof.
  split; [reflexivity|].
  pose proof (Query_Build_replaces_select_and_group sample_fragment sample_target eq_refl)
    as (Hs & Hg & _).
  split; [exact Hs | exact Hg].
Defined.



Lemma Query_Build_keeps_Unscoped_witness :
  Query_empty sample_target = false
  /\ Query_UnscopedQuery sample_fragment = true
  /\ Query_UnscopedQuery (Query_Build sample_fragment sample_target) = false.
Proof.
  split; [reflexivity|]. split; [reflexivity|].
  exact (proj1 (Query_Build_keeps_Unscoped sample_fragment sample_target eq_refl)).
Defined.

Lemma Query_String_raw_SQL_witness :
  SQLQuery_Statement (Query_SQLQuery (sample_raw "todos")) <> EmptyString
  /\ @Query_String example_Package (sample_raw "todos") = "SELECT 1"%string.
Proof.
  assert (Hs : SQLQuery_Statement (Query_SQLQuery (sample_raw "todos")) <> EmptyString)
    by (cbn; discriminate).
  split; [exact Hs|].
  exact (proj1 (@Query_String_raw_SQL example_Package (sample_raw "todos") Hs)).
Defined.

(** ** More evaluations *)

Example String_sample_chain :
  @Query_String example_Package sample_chain
  = ("rel.From(" ++ dq ++ "todos" ++ dq ++ ").Where(completed = ?).SortAsc("
     ++ dq ++ "id" ++ dq ++ ").Limit(20)")%string.
Proof. reflexivity. Qed.

Example String_Cascade_false :
  @Query_String example_Package (Query_Cascade (From "todos") false)
  = ("rel.From(" ++ dq ++ "todos" ++ dq ++ ").Cascade(false)")%string.
Proof. reflexivity. Qed.

Example String_newQuery : @Query_String example_Package newQuery = EmptyString.
Proof. reflexivity. Qed.

Example Build_merges_limit :
  Query_LimitQuery
    (@Build example_Package "todos"
       [Querier_Limit 5%Z; Querier_Query (Query_Limit newQuery 0)]) = 5%Z
  /\ Query_LimitQuery
       (@Build example_Package "todos"
          [Querier_Limit 5%Z; Querier_Query (Query_Limit newQuery 10)]) = 10%Z.
Proof. split; reflexivity. Qed.

Example Build_head_position_matters :
  Query_CascadeQuery
    (@Build example_Package "todos" [Querier_Query (Query_Cascade newQuery false)]) = false
  /\ Query_CascadeQuery
       (@Build example_Package "todos"
          [Querier_nil; Querier_Query (Query_Cascade newQuery false)]) = true.
Proof. split; reflexivity. Qed.

Example And_flattens :
  And [And [pred_a; pred_b]; pred_c] = And [pred_a; pred_b; pred_c].
Proof. reflexivity. Qed.

(** * Further properties of query.go *)

(** ** The merge, further *)

(** X5.  A merge into an aggregate that is not marked empty never unsets what
    the aggregate has: a table, offset, limit or lock that is set stays set
    (to the aggregate's value or the fragment's), and a reload, cascade or
    use-primary flag that is on stays on. *)
Theorem Query_Build_never_unsets (q query : Query) :
  Query_empty query = false ->
  (Query_Table query <> EmptyString -> Query_Table (Query_Build q query) <> EmptyString)
  /\ (Query_OffsetQuery query <> 0%Z -> Query_OffsetQuery (Query_Build q query) <> 0%Z)
  /\ (Query_LimitQuery query <> 0%Z -> Query_LimitQuery (Query_Build q query) <> 0%Z)
  /\ (Query_LockQuery query <> EmptyString ->
      Query_LockQuery (Query_Build q query) <> EmptyString)
  /\ (Query_ReloadQuery query = true -> Query_ReloadQuery (Query_Build q query) = true)
  /\ (Query_CascadeQuery query = true -> Query_CascadeQuery (Query_Build q query) = true)
  /\ (Query_UsePrimaryDb query = true -> Query_UsePrimaryDb (Query_Build q query) = true).
Proof.
  intros He. unfold Query_Build. rewrite He. cbn.
  split; [|split; [|split; [|split; [|split; [|split]]]]].
  - destruct (Query_Table q =? EmptyString)%string eqn:E; cbn; [tauto|].
    intros _. now apply String.eqb_neq.
  - destruct (Query_OffsetQuery q =? 0)%Z eqn:E; cbn; [tauto|].
    intros _. now apply Z.eqb_neq.
  - destruct (Query_LimitQuery q =? 0)%Z eqn:E; cbn; [tauto|].
    intros _. now apply Z.eqb_neq.
  - destruct (Query_LockQuery q =? EmptyString)%string eqn:E; cbn; [tauto|].
    intros _. now apply String.eqb_neq.
  - intros ->. reflexivity.
  - intros ->. reflexivity.
  - intros ->. reflexivity.
Qed.

Lemma Query_Build_never_unsets_witness :
  Query_empty sample_target = false
  /\ Query_Table sample_target <> EmptyString
  /\ Query_Table (Query_Build sample_fragment sample_target) <> EmptyString
  /\ Query_CascadeQuery (Query_Build (Query_Cascade sample_fragment false) sample_target)
     = true.
Proof.
  pose proof (Query_Build_never_unsets sample_fragment sample_target eq_refl)
    as (Ht & _).
  pose proof (Query_Build_never_unsets (Query_Cascade sample_fragment false)
                sample_target eq_refl) as (_ & _ & _ & _ & _ & Hc & _).
  assert (Hne : Query_Table sample_target <> EmptyString) by (cbn; discriminate).
  split; [reflexivity|]. split; [exact Hne|]. split; [exact (Ht Hne)|].
  exact (Hc eq_refl).
Defined.

(** X6.  Merging a fragment that sets nothing into an aggregate that is not
    marked empty returns the aggregate unchanged, every field included. *)
Theorem Query_Build_sets_nothing (q query : Query) :
  Query_empty query = false ->
  sets_nothing q = true ->
  Query_Build q query = query.
Proof.
  intros He Hn. unfold sets_nothing in Hn.
  repeat (apply andb_true_iff in Hn; destruct Hn as [Hn ?]).
  destruct query as [e t s j w g so o l lk sq u r c p up].
  destruct q as [e' t' s' j' w' g' so' o' l' lk' sq' u' r' c' p' up'].
  cbn in *. subst e.
  destruct j'; [|discriminate]. destruct so'; [|discriminate].
  repeat match goal with
         | Hb : negb ?b = true |- _ => apply negb_true_iff in Hb; subst b
         end.
  cbn. rewrite !app_nil_r, !orb_false_r.
  repeat match goal with
         | Hb : ?b = true |- context [negb ?b] => rewrite Hb
         end.
  reflexivity.
Qed.

Lemma Query_Build_sets_nothing_witness :
  Query_empty sample_target = false
  /\ sets_nothing (Query_Unscoped (Query_Preload Query_zero "tags")) = true
  /\ Query_Build (Query_Unscoped (Query_Preload Query_zero "tags")) sample_target
     = sample_target.
Proof.
  split; [reflexivity|]. split; [reflexivity|].
  exact (Query_Build_sets_nothing (Query_Unscoped (Query_Preload Query_zero "tags"))
           sample_target eq_refl eq_refl).
Defined.

(** ** The fold, further *)

Section FoldFurther.
Context `{Package}.

(** The aggregate the loop of [Build] starts from. *)
Lemma Build_unfold (table : string) (queriers : list Querier) :
  exists start : Query,
    Query_empty start = match queriers with
                        | first :: _ => is_Query first
                        | [] => false
                        end
    /\ set_empty false start = newQuery
    /\ Build table queriers
       = (let query := fold_left Build_switch queriers start in
          if (Query_Table query =? EmptyString)%string
          then set_Table table query else query).
Proof.
  destruct queriers as [|first rest].
  - exists newQuery. repeat split.
  - exists (set_empty (is_Query first) newQuery). repeat split.
Qed.

(** X1.  Building again from a built query gives the same query: Build with
    the single fragment Build(table, queriers...) and the same table returns
    that fragment, whatever the fragments and the rest of the package. *)
Theorem Build_of_built_query (table : string) (queriers : list Querier) :
  Build table [Querier_Query (Build table queriers)] = Build table queriers.
Proof.
  assert (Hone : forall B : Query,
             Build table [Querier_Query B]
             = if (Query_Table B =? EmptyString)%string then set_Table table B else B)
    by reflexivity.
  rewrite Hone.
  destruct (Build_unfold table queriers) as (start & _ & _ & ->). cbv zeta.
  set (q0 := fold_left Build_switch queriers start).
  destruct (Query_Table q0 =? EmptyString)%string eqn:E.
  - cbn [Query_Table set_Table].
    destruct (table =? EmptyString)%string; reflexivity.
  - now rewrite E.
Qed.

(** X2.  The table of the query Build returns is empty only if the table
    given to Build is: with a non-empty default table the result always has a
    table, whatever the fragments do. *)
Theorem Build_table_not_empty (table : string) (queriers : list Querier) :
  table <> EmptyString ->
  Query_Table (Build table queriers) <> EmptyString.
Proof.
  intros Ht.
  destruct (Build_unfold table queriers) as (start & _ & _ & ->). cbv zeta.
  destruct (Query_Table (fold_left Build_switch queriers start) =? EmptyString)%string
    eqn:E.
  - exact Ht.
  - now apply String.eqb_neq.
Qed.

Lemma unmarked_Build_switch (querier : Querier) (query : Query) :
  unmarked querier = true ->
  Query_empty query = false ->
  Query_empty (Build_switch query querier) = false
  /\ (Query_CascadeQuery query = true ->
      Query_CascadeQuery (Build_switch query querier) = true).
Proof.
  intros Hu He.
  destruct querier; cbn in Hu; try discriminate; cbn; auto.
  unfold Query_Build. rewrite He. cbn. split; [reflexivity|].
  intros ->. reflexivity.
Qed.

Lemma unmarked_fold (queriers : list Querier) (query : Query) :
  forallb unmarked queriers = true ->
  Query_empty query = false ->
  Query_empty (fold_left Build_switch queriers query) = false
  /\ (Query_CascadeQuery query = true ->
      Query_CascadeQuery (fold_left Build_switch queriers query) = true).
Proof.
  revert query. induction queriers as [|x l IH]; intros query Hu He; cbn in *.
  - auto.
  - apply andb_true_iff in Hu. destruct Hu as [Hx Hl].
    destruct (unmarked_Build_switch x query Hx He) as [He' Hc'].
    destruct (IH _ Hl He') as [He'' Hc'']. auto.
Qed.

(** X3.  Build never returns a query marked empty when its fragments are
    plain fragments and queries that are not marked empty: the marker set for
    a first query fragment is overwritten with that fragment, and neither a
    merge nor a plain fragment sets it. *)
Theorem Build_never_marked_empty (table : string) (queriers : list Querier) :
  forallb unmarked queriers = true ->
  Query_empty (Build table queriers) = false.
Proof.
  intros Hu.
  assert (Hfold : exists query : Query,
             Query_empty query = false
             /\ Build table queriers
                = if (Query_Table query =? EmptyString)%string
                  then set_Table table query else query).
  { destruct queriers as [|first rest].
    - exists newQuery. split; reflexivity.
    - cbn in Hu. apply andb_true_iff in Hu. destruct Hu as [Hf Hr].
      exists (fold_left Build_switch rest
                (Build_switch (set_empty (is_Query first) newQuery) first)).
      split; [|reflexivity].
      apply unmarked_fold; [exact Hr|].
      destruct first; cbn in Hf; try discriminate; try reflexivity.
      cbn. now apply negb_true_iff. }
  destruct Hfold as (query & He & ->).
  destruct (Query_Table query =? EmptyString)%string; exact He.
Qed.

(** X4.  When the fragments are plain fragments and queries that are not
    marked empty, and the first of them is not a query, the cascade flag of
    the result is on whatever the later query fragments carry: a merge
    or-combines the flag with that of the fresh aggregate, so Cascade(false)
    of a merged query fragment is lost. *)
Theorem Build_cascade_stays_on (table : string) (first : Querier) (rest : list Querier) :
  is_Query first = false ->
  forallb unmarked (first :: rest) = true ->
  Query_CascadeQuery (Build table (first :: rest)) = true.
Proof.
  intros Hq Hu.
  assert (Hs : Query_empty (set_empty (is_Query first) newQuery) = false
               /\ Query_CascadeQuery (set_empty (is_Query first) newQuery) = true)
    by (rewrite Hq; split; reflexivity).
  destruct Hs as [He Hc].
  destruct (unmarked_fold (first :: rest) _ Hu He) as [_ Hc'].
  specialize (Hc' Hc). unfold Build. cbv zeta.
  match goal with
  | |- Query_CascadeQuery (if ?b then _ else _) = true => destruct b
  end; cbn [Query_CascadeQuery set_Table]; exact Hc'.
Qed.

Lemma plain_fold_preloads (queriers : list Querier) (query : Query) :
  forallb plain queriers = true ->
  Query_PreloadQuery (fold_left Build_switch queriers query)
  = Query_PreloadQuery query ++ preloads_of queriers.
Proof.
  revert query. induction queriers as [|x l IH]; intros query Hp; cbn in *.
  - now rewrite app_nil_r.
  - apply andb_true_iff in Hp. destruct Hp as [Hx Hl].
    rewrite (IH _ Hl).
    destruct x; cbn in Hx; try discriminate; cbn; try reflexivity.
    now rewrite <- app_assoc.
Qed.

(** X7.  Folding plain fragments, the preload list of the result is the list
    of the preload fragments in the order they were given, repetitions kept;
    the other plain fragments add nothing to it. *)
Theorem Build_collects_preloads (table : string) (queriers : list Querier) :
  forallb plain queriers = true ->
  Query_PreloadQuery (Build table queriers) = preloads_of queriers.
Proof.
  intros Hp.
  destruct (Build_unfold table queriers) as (start & _ & Hstart & ->). cbv zeta.
  assert (Hpre : Query_PreloadQuery start = [])
    by (change (Query_PreloadQuery (set_empty false start) = []); now rewrite Hstart).
  pose proof (plain_fold_preloads queriers start Hp) as Hfold.
  rewrite Hpre in Hfold.
  match goal with
  | |- Query_PreloadQuery (if ?b then _ else _) = _ => destruct b
  end; cbn [Query_PreloadQuery set_Table]; exact Hfold.
Qed.

Lemma plain_fold_keeps_Limit (queriers : list Querier) (query : Query) :
  forallb plain queriers = true ->
  forallb (fun querier => negb (is_Limit querier)) queriers = true ->
  Query_LimitQuery (fold_left Build_switch queriers query) = Query_LimitQuery query.
Proof.
  revert query. induction queriers as [|x l IH]; intros query Hp Hl; cbn in *.
  - reflexivity.
  - apply andb_true_iff in Hp. destruct Hp as [Hx Hp].
    apply andb_true_iff in Hl. destruct Hl as [Hxl Hl].
    rewrite (IH _ Hp Hl).
    destruct x; cbn in Hx, Hxl; try discriminate; reflexivity.
Qed.

(** X8.  The last limit fragment wins, also when it is zero: after a Limit
    fragment followed by plain fragments none of which is a limit, the limit
    of the result is that of the fragment, whatever came before it. *)
Theorem Build_last_Limit_wins (table : string) (pre post : list Querier) (l : Limit) :
  forallb plain post = true ->
  forallb (fun querier => negb (is_Limit querier)) post = true ->
  Query_LimitQuery (Build table (pre ++ Querier_Limit l :: post)) = l.
Proof.
  intros Hp Hl.
  destruct (Build_unfold table (pre ++ Querier_Limit l :: post))
    as (start & _ & _ & ->). cbv zeta.
  assert (Hfold : Query_LimitQuery
                    (fold_left Build_switch (pre ++ Querier_Limit l :: post) start) = l).
  { rewrite fold_left_app. cbn [fold_left].
    now rewrite (plain_fold_keeps_Limit post _ Hp Hl). }
  match goal with
  | |- Query_LimitQuery (if ?b then _ else _) = _ => destruct b
  end; cbn [Query_LimitQuery set_Table]; exact Hfold.
Qed.

End FoldFurther.

Lemma Build_table_not_empty_witness :
  "todos"%string <> EmptyString
  /\ Query_Table
       (@Build example_Package "todos"
          [Querier_Limit 5%Z; Querier_Query (Query_Limit newQuery 10)])
     <> EmptyString.
Proof.
  assert (Ht : "todos"%string <> EmptyString) by discriminate.
  split; [exact Ht|].
  apply (@Build_table_not_empty example_Package). exact Ht.
Defined.

Lemma Build_never_marked_empty_witness :
  forallb unmarked [Querier_Query sample_fragment; Querier_Query sample_target;
                    Querier_Preload "owner"] = true
  /\ Query_empty
       (@Build example_Package "todos"
          [Querier_Query sample_fragment; Querier_Query sample_target;
           Querier_Preload "owner"]) = false.
Proof.
  split; [reflexivity|].
  apply (@Build_never_marked_empty example_Package). reflexivity.
Defined.

Lemma Build_cascade_stays_on_witness :
  is_Query (Querier_Limit 5%Z) = false
  /\ forallb unmarked
       [Querier_Limit 5%Z; Querier_Query (Query_Cascade sample_fragment false)] = true
  /\ Query_CascadeQuery (Query_Cascade sample_fragment false) = false
  /\ Query_CascadeQuery
       (@Build example_Package "todos"
          [Querier_Limit 5%Z; Querier_Query (Query_Cascade sample_fragment false)])
     = true.
Proof.
  split; [reflexivity|]. split; [reflexivity|]. split; [reflexivity|].
  apply (@Build_cascade_stays_on example_Package); reflexivity.
Defined.

Lemma Build_collects_preloads_witness :
  forallb plain [Querier_Preload "owner"; Querier_Limit 5%Z; Querier_Preload "tags";
                 Querier_Preload "owner"] = true
  /\ Query_PreloadQuery
       (@Build example_Package "todos"
          [Querier_Preload "owner"; Querier_Limit 5%Z; Querier_Preload "tags";
           Querier_Preload "owner"])
     = ["owner"; "tags"; "owner"]%string.
Proof.
  split; [reflexivity|].
  apply (@Build_collects_preloads example_Package). reflexivity.
Defined.

Lemma Build_last_Limit_wins_witness :
  forallb plain [Querier_Offset 3%Z] = true
  /\ forallb (fun querier => negb (is_Limit querier)) [Querier_Offset 3%Z] = true
  /\ Query_LimitQuery
       (@Build example_Package "todos"
          ([Querier_Query (Query_Limit newQuery 10)]
           ++ Querier_Limit 0%Z :: [Querier_Offset 3%Z])) = 0%Z.
Proof.
  split; [reflexivity|]. split; [reflexivity|].
  exact (@Build_last_Limit_wins example_Package "todos"
           [Querier_Query (Query_Limit newQuery 10)] [Querier_Offset 3%Z] 0%Z
           eq_refl eq_refl).
Defined.

(** ** The rendering, further *)

Section StringFurther.
Context `{Package}.

(** [String] reads a query through its raw SQL query and its clauses only. *)
Lemma Query_String_ext (q q' : Query) :
  Query_SQLQuery q' = Query_SQLQuery q ->
  Query_clauses q' = Query_clauses q ->
  Query_String q' = Query_String q.
Proof.
  intros Hsql Hcl.
  destruct (SQLQuery_Statement (Query_SQLQuery q) =? EmptyString)%string eqn:E.
  - apply String.eqb_eq in E.
    rewrite !Query_String_builder; rewrite ?Hsql; auto. now rewrite Hcl.
  - apply String.eqb_neq in E.
    rewrite !Query_String_raw; rewrite ?Hsql; auto.
Qed.

(** X9.  A having filter is rendered only inside a group: for a query with no
    group field, String does not depend on the having filter, so a Having
    call on such a query leaves its String as it was. *)
Theorem String_ignores_Having_without_Group (q : Query) :
  len (GroupQuery_Fields (Query_GroupQuery q)) = 0 ->
  (forall filter : FilterQuery,
      Query_String
        (set_GroupQuery (mkGroupQuery (GroupQuery_Fields (Query_GroupQuery q)) filter) q)
      = Query_String q)
  /\ (forall filters : list FilterQuery,
         Query_String (Query_Having q filters) = Query_String q).
Proof.
  intros Hlen.
  assert (Hgen : forall filter : FilterQuery,
             Query_String
               (set_GroupQuery
                  (mkGroupQuery (GroupQuery_Fields (Query_GroupQuery q)) filter) q)
             = Query_String q).
  { intros filter. apply Query_String_ext; [reflexivity|].
    unfold Query_clauses. cbn. rewrite Hlen. reflexivity. }
  split; [exact Hgen|]. intros filters. apply Hgen.
Qed.

(** X10.  A limit or an offset that is zero or negative is not rendered: the
    String of a query is the same for every such limit, and for every such
    offset. *)
Theorem String_ignores_nonpositive_Limit_and_Offset (q : Query) (n : Z) :
  (n <= 0)%Z ->
  Query_String (Query_Limit q n) = Query_String (Query_Limit q 0)
  /\ Query_String (Query_Offset q n) = Query_String (Query_Offset q 0).
Proof.
  intros Hn.
  assert (Hlt : (0 <? n)%Z = false) by (apply Z.ltb_ge; exact Hn).
  split; (apply Query_String_ext; [reflexivity|]);
    unfold Query_clauses; cbn; rewrite Hlt; reflexivity.
Qed.

(** X11.  Without a raw SQL statement the String of a query is either empty
    or the root token rel followed by a dot and the rest of the first
    clause. *)
Theorem Query_String_starts_with_root (q : Query) :
  SQLQuery_Statement (Query_SQLQuery q) = EmptyString ->
  Query_String q = EmptyString
  \/ exists rest : string, Query_String q = ("rel." ++ rest)%string.
Proof.
  intros Hs. rewrite (Query_String_builder q Hs).
  destruct (Query_clauses q) as [|c l]; [left; reflexivity|right].
  cbn [render map flatten fold_right].
  destruct (emit_starts_with_dot c) as [s ->].
  eexists. reflexivity.
Qed.

End StringFurther.

Lemma String_ignores_Having_without_Group_witness :
  len (GroupQuery_Fields (Query_GroupQuery (From "todos"))) = 0
  /\ @Query_String example_Package (Query_Having (From "todos") [pred_a])
     = ("rel.From(" ++ dq ++ "todos" ++ dq ++ ")")%string.
Proof.
  split; [reflexivity|].
  rewrite (proj2 (@String_ignores_Having_without_Group example_Package
                    (From "todos") eq_refl) [pred_a]).
  reflexivity.
Defined.

Lemma String_ignores_nonpositive_Limit_and_Offset_witness :
  (-5 <= 0)%Z
  /\ @Query_String example_Package (Query_Limit (From "todos") (-5))
     = ("rel.From(" ++ dq ++ "todos" ++ dq ++ ")")%string.
Proof.
  assert (Hn : (-5 <= 0)%Z) by lia.
  split; [exact Hn|].
  rewrite (proj1 (@String_ignores_nonpositive_Limit_and_Offset example_Package
                    (From "todos") (-5)%Z Hn)).
  reflexivity.
Defined.

Lemma Query_String_starts_with_root_witness :
  SQLQuery_Statement (Query_SQLQuery sample_chain) = EmptyString
  /\ (@Query_String example_Package sample_chain = EmptyString
      \/ exists rest : string,
           @Query_String example_Package sample_chain = ("rel." ++ rest)%string).
Proof.
  split; [reflexivity|].
  exact (@Query_String_starts_with_root example_Package sample_chain eq_refl).
Defined.
